(** * Gitea MCP server: request translation and transport client

    A shallow embedding of [src/datapilot_gitea_mcp/server.py].  The tool
    functions build a JSON body or a query-parameter dict and hand it to
    [make_request], which performs one [httpx] request and normalises the
    outcome.  Python values are a small inductive type, dicts are
    insertion-ordered association lists, and the effects of the module
    (requests put on the wire, log records, raised exceptions) live in an
    exception-and-state monad. *)

From Stdlib Require Import String Ascii ZArith List Bool Lia DecimalString
  DecimalZ DecimalPos.
From ExtLib Require Import Structures.Monad Structures.MonadExc.
Import ListNotations.
Import MonadNotation.
Local Open Scope string_scope.
Local Open Scope Z_scope.
Local Open Scope monad_scope.

Set Implicit Arguments.

(** ** Python values *)

(** The values the tool functions put into bodies and query parameters,
    and the values [response.json()] decodes to.  JSON [null] decodes to
    [PNone], the same [None] the code returns by hand. *)
#[warnings="-register-all"]
Inductive pyval : Type :=
| PNone
| PBool (b : bool)
| PInt (z : Z)
| PStr (s : string)
| PList (l : list pyval)
| PDict (d : list (string * pyval)).

Definition dict := list (string * pyval).

(** Python truthiness, as tested by [if x:]. *)
Definition truthy (v : pyval) : bool :=
  match v with
  | PNone => false
  | PBool b => b
  | PInt z => negb (z =? 0)
  | PStr s => negb (String.eqb s EmptyString)
  | PList l => match l with [] => false | _ => true end
  | PDict d => match d with [] => false | _ => true end
  end.

(** [x is not None]. *)
Definition is_not_None (v : pyval) : bool :=
  match v with PNone => false | _ => true end.

(** Typed arguments are injected into Python values; an optional argument
    whose default is [None] is an [option]. *)
Class ToPy (A : Type) := py : A -> pyval.
#[global] Instance ToPy_bool : ToPy bool := PBool.
#[global] Instance ToPy_Z : ToPy Z := PInt.
#[global] Instance ToPy_string : ToPy string := PStr.
#[global] Instance ToPy_list {A} `{ToPy A} : ToPy (list A) :=
  fun l => PList (map py l).
#[global] Instance ToPy_option {A} `{ToPy A} : ToPy (option A) :=
  fun o => match o with Some a => py a | None => PNone end.

(** [str(n)] for an [int], as an f-string renders it. *)
Definition str_int (z : Z) : string := NilZero.string_of_int (Z.to_int z).

(** Reading a decimal rendering back, for round trips. *)
Definition parse_int (s : string) : option Z :=
  option_map Z.of_int (NilZero.int_of_string s).

(** ** Dicts: insertion-ordered, keys unique *)

(** [d[k] = v]: overwrite in place when the key exists, append otherwise. *)
Fixpoint dict_set (k : string) (v : pyval) (d : dict) : dict :=
  match d with
  | [] => [(k, v)]
  | (k', v') :: d' =>
      if String.eqb k k' then (k, v) :: d' else (k', v') :: dict_set k v d'
  end.

Fixpoint dict_get (k : string) (d : dict) : option pyval :=
  match d with
  | [] => None
  | (k', v) :: d' => if String.eqb k k' then Some v else dict_get k d'
  end.

(** [if c: d[k] = v] *)
Definition set_if (c : bool) (k : string) (v : pyval) (d : dict) : dict :=
  if c then dict_set k v d else d.

Definition dict_keys (d : dict) : list string := map fst d.

(** The keys of an optional dict argument; no dict, no keys. *)
Definition opt_keys (o : option dict) : list string :=
  match o with Some d => dict_keys d | None => [] end.

Definition opt_get (k : string) (o : option dict) : option pyval :=
  match o with Some d => dict_get k d | None => None end.

(** ** JSON documents and their decoding *)

#[warnings="-register-all"]
Inductive json : Type :=
| JNull
| JBool (b : bool)
| JNumber (z : Z)
| JString (s : string)
| JArray (l : list json)
| JObject (o : list (string * json)).

(** The value [json.loads] builds from a parsed document: [null] becomes
    [None], objects become dicts (a repeated key keeps its last value). *)
Fixpoint decode (j : json) : pyval :=
  match j with
  | JNull => PNone
  | JBool b => PBool b
  | JNumber z => PInt z
  | JString s => PStr s
  | JArray l => PList (map decode l)
  | JObject o =>
      PDict (fold_left (fun d kv => dict_set (fst kv) (decode (snd kv)) d) o [])
  end.

(** ** HTTP, exceptions and the world *)

Record http_request : Type := {
  rq_method : string;
  rq_url : string;
  rq_headers : list (string * string);
  rq_json : option dict;
  rq_params : option dict
}.

Record http_response : Type := {
  status_code : Z;
  text : string;
  (** what parsing [text] as JSON gives: the document, or the message of
      the decoding exception *)
  json_body : string + json
}.

(** Exceptions the module can see.  [HTTPStatusError] carries its response;
    every other [Exception] subclass is its class name and [str(e)]. *)
Inductive exn : Type :=
| HTTPStatusError (response : http_response)
| Exception (cls : string) (msg : string).

(** What [client.request] does: a response comes back, or the transport
    raises (connection refused, timeout, ...). *)
Inductive transport_outcome : Type :=
| Responded (r : http_response)
| Failed (e : exn).

Inductive level : Type := INFO | ERROR.

Record world : Type := {
  sent : list http_request;
  logged : list (level * string)
}.

Definition init_world : world := {| sent := []; logged := [] |}.

Inductive outcome (A : Type) : Type :=
| Return (a : A)
| Raise (e : exn).
Arguments Raise {A} e.

(** Computations of the module: they read and extend the world and either
    return a value or raise. *)
Definition M (A : Type) : Type := world -> outcome A * world.

Definition M_ret {A} (a : A) : M A := fun w => (Return a, w).

Definition M_bind {A B} (m : M A) (f : A -> M B) : M B :=
  fun w => match m w with
           | (Return a, w') => f a w'
           | (Raise e, w') => (Raise e, w')
           end.

Definition M_raise {A} (e : exn) : M A := fun w => (Raise e, w).

(** [try: m  except ... as e: h e] *)
Definition M_catch {A} (m : M A) (h : exn -> M A) : M A :=
  fun w => match m w with
           | (Return a, w') => (Return a, w')
           | (Raise e, w') => h e w'
           end.

#[global] Instance Monad_M : Monad M := {| ret := @M_ret; bind := @M_bind |}.
#[global] Instance MonadExc_M : MonadExc exn M :=
  {| raise := @M_raise; catch := @M_catch |}.

Definition result {A} (r : outcome A * world) : outcome A := fst r.
Definition final {A} (r : outcome A * world) : world := snd r.

(** An Error Record is a dict with an ["error"] key. *)
Definition is_error_record (v : pyval) : bool :=
  match v with
  | PDict d => match dict_get "error" d with Some _ => true | None => false end
  | _ => false
  end.

Definition returns_error_record (o : outcome pyval) : bool :=
  match o with Return v => is_error_record v | Raise _ => false end.

(** ** Module start-up: the configuration *)

(** [os.environ]: the variables that are set, each with its value. *)
Definition environ := list (string * string).

(** [os.getenv(k)]: [None] when the variable is not set. *)
Fixpoint os_getenv (k : string) (env : environ) : option string :=
  match env with
  | [] => None
  | (k', v) :: env' => if String.eqb k k' then Some v else os_getenv k env'
  end.

(** The bindings python-dotenv reads from a [.env] file. *)
Definition dotenv := list (string * string).

(** [load_dotenv(...)] on a file that exists, with the default
    [override=False]: a variable the environment already has is left as
    it is, the others are set from the file. *)
Fixpoint load_dotenv (file : dotenv) (env : environ) : environ :=
  match file with
  | [] => env
  | (k, v) :: rest =>
      load_dotenv rest
        match os_getenv k env with
        | Some _ => env
        | None => (env ++ [(k, v)])%list
        end
  end.

Definition config_error : exn :=
  Exception "ValueError"
    "GITEA_MCP_API_URL and GITEA_ACCESS_TOKEN environment variables are required. Please check your .env file.".

(** The top of the module: [load_dotenv()] on the [.env] file it finds (if
    any), a first reading of the two variables, the fallback to the
    [.env] file of the project root (if it exists) when one of them is
    missing or empty, and [ValueError] when one still is. *)
Definition load_configuration (found_env project_env : option dotenv)
    (env : environ) : outcome (string * string) * environ :=
  let env := match found_env with Some file => load_dotenv file env | None => env end in
  let url := os_getenv "GITEA_MCP_API_URL" env in
  let token := os_getenv "GITEA_ACCESS_TOKEN" env in
  let '(url, token, env) :=
    if negb (truthy (py url)) || negb (truthy (py token)) then
      match project_env with
      | Some file =>
          let env := load_dotenv file env in
          (os_getenv "GITEA_MCP_API_URL" env,
           os_getenv "GITEA_ACCESS_TOKEN" env, env)
      | None => (url, token, env)
      end
    else (url, token, env) in
  if negb (truthy (py url)) || negb (truthy (py token)) then
    (Raise config_error, env)
  else
    match url, token with
    | Some u, Some t => (Return (u, t), env)
    | _, _ => (Raise config_error, env)
    end.

(** ** Remotes and responses for concrete runs *)

Definition demo_url : string := "https://gitea.example.org".
Definition demo_token : string := "0123abcd".

(** A host that cannot be reached: [client.request] raises. *)
Definition unreachable (e : exn) : http_request -> transport_outcome :=
  fun _ => Failed e.

(** A remote that gives the same answer to every request. *)
Definition answering (r : http_response) : http_request -> transport_outcome :=
  fun _ => Responded r.

(** The double quote character, for response bodies. *)
Definition dquote : string := String (ascii_of_nat 34) EmptyString.

(** The body [{"message":"not found"}]. *)
Definition not_found_text : string :=
  "{" ++ dquote ++ "message" ++ dquote ++ ":" ++ dquote ++ "not found"
  ++ dquote ++ "}".

Definition not_found : http_response :=
  {| status_code := 404;
     text := not_found_text;
     json_body := inr (JObject [ ("message", JString "not found") ]) |}.

(** A 204 answer: no body, and nothing to parse. *)
Definition no_content : http_response :=
  {| status_code := 204;
     text := EmptyString;
     json_body := inl "Expecting value: line 1 column 1 (char 0)" |}.

(** A 200 answer whose body is the JSON document [null]. *)
Definition null_document : http_response :=
  {| status_code := 200; text := "null"; json_body := inr JNull |}.

Definition empty_list_document : http_response :=
  {| status_code := 200; text := "[]"; json_body := inr (JArray []) |}.

(** A 200 answer with no body at all. *)
Definition empty_body : http_response :=
  {| status_code := 200;
     text := EmptyString;
     json_body := inl "Expecting value: line 1 column 1 (char 0)" |}.

(** A 200 answer whose document has an [error] member. *)
Definition soft_failure : http_response :=
  {| status_code := 200;
     text := "{" ++ dquote ++ "error" ++ dquote ++ ":" ++ dquote ++ "busy"
             ++ dquote ++ "}";
     json_body := inr (JObject [ ("error", JString "busy") ]) |}.

Definition connect_error : exn :=
  Exception "ConnectError" "All connection attempts failed".

(** An environment with the URL only, and a project file with both. *)
Definition url_only : environ :=
  [ ("HOME", "/home/alice"); ("GITEA_MCP_API_URL", "https://gitea.example.org") ].

Definition project_dotenv : dotenv :=
  [ ("GITEA_MCP_API_URL", "http://localhost:3000");
    ("GITEA_ACCESS_TOKEN", "0123abcd") ].

(** ** The server *)

Section Server.

(** Module configuration, read once from the environment. *)
Variable GITEA_MCP_API_URL : string.
Variable GITEA_ACCESS_TOKEN : string.

(** The remote service as [client.request] sees it. *)
Variable remote : http_request -> transport_outcome.

Definition get_headers : list (string * string) :=
  [ ("Authorization", "token " ++ GITEA_ACCESS_TOKEN);
    ("Content-Type", "application/json");
    ("Accept", "application/json") ].

Definition logger_info (msg : string) : M unit :=
  fun w => (Return tt, {| sent := sent w; logged := logged w ++ [(INFO, msg)] |}).

Definition logger_error (msg : string) : M unit :=
  fun w => (Return tt, {| sent := sent w; logged := logged w ++ [(ERROR, msg)] |}).

(** [client.request(method, url, headers=..., json=..., params=...)]:
    the request goes on the wire, then the transport answers or raises. *)
Definition client_request (rq : http_request) : M http_response :=
  fun w =>
    let w' := {| sent := sent w ++ [rq]; logged := logged w |} in
    match remote rq with
    | Responded r => (Return r, w')
    | Failed e => (Raise e, w')
    end.

(** [response.is_success] *)
Definition is_success (r : http_response) : bool :=
  (200 <=? status_code r) && (status_code r <=? 299).

(** [response.raise_for_status()], as httpx documents it: it raises
    [HTTPStatusError] for every status outside 2xx. *)
Definition raise_for_status (r : http_response) : M unit :=
  if is_success r then ret tt else raise (HTTPStatusError r).

(** [response.json()] *)
Definition response_json (r : http_response) : M pyval :=
  match json_body r with
  | inr j => ret (decode j)
  | inl msg => raise (Exception "JSONDecodeError" msg)
  end.

(** The request [make_request] hands to [client.request]. *)
Definition build_request (method endpoint : string)
    (data params : option dict) : http_request :=
  {| rq_method := method;
     rq_url := GITEA_MCP_API_URL ++ "/api/v1/" ++ endpoint;
     rq_headers := get_headers;
     rq_json := data;
     rq_params := params |}.

Definition make_request (method endpoint : string)
    (data params : option dict) : M pyval :=
  let url := GITEA_MCP_API_URL ++ "/api/v1/" ++ endpoint in
  let headers := get_headers in
  logger_info ("Request: " ++ method ++ " " ++ url) ;;
  response <- client_request
                {| rq_method := method; rq_url := url; rq_headers := headers;
                   rq_json := data; rq_params := params |} ;;
  catch
    (raise_for_status response ;;
     if status_code response =? 204 then ret PNone
     else response_json response)
    (fun e =>
       match e with
       | HTTPStatusError r =>
           logger_error ("HTTP Error: " ++ str_int (status_code r)
                         ++ " - " ++ text r) ;;
           ret (PDict [ ("error", PStr ("HTTP Error: " ++ str_int (status_code r)));
                        ("details", PStr (text r)) ])
       | Exception _ msg =>
           logger_error ("Unexpected Error: " ++ msg) ;;
           ret (PDict [ ("error", PStr msg) ])
       end).

Definition list_repositories : M pyval :=
  make_request "GET" "user/repos" None None.

Definition create_repository (name : string) (description : option string)
    (private auto_init : bool)
    (gitignores license readme issue_labels : option string)
    (default_branch : string) : M pyval :=
  let data := [ ("name", py name); ("private", py private);
                ("auto_init", py auto_init);
                ("default_branch", py default_branch) ] in
  let data := set_if (truthy (py description)) "description" (py description) data in
  let data := set_if (truthy (py gitignores)) "gitignores" (py gitignores) data in
  let data := set_if (truthy (py license)) "license" (py license) data in
  let data := set_if (truthy (py readme)) "readme" (py readme) data in
  let data := set_if (truthy (py issue_labels)) "issue_labels" (py issue_labels) data in
  make_request "POST" "user/repos" (Some data) None.

Definition create_org_repository (org name : string)
    (description : option string) (private auto_init : bool)
    (gitignores license readme issue_labels : option string)
    (default_branch : string) : M pyval :=
  let data := [ ("name", py name); ("private", py private);
                ("auto_init", py auto_init);
                ("default_branch", py default_branch) ] in
  let data := set_if (truthy (py description)) "description" (py description) data in
  let data := set_if (truthy (py gitignores)) "gitignores" (py gitignores) data in
  let data := set_if (truthy (py license)) "license" (py license) data in
  let data := set_if (truthy (py readme)) "readme" (py readme) data in
  let data := set_if (truthy (py issue_labels)) "issue_labels" (py issue_labels) data in
  make_request "POST" ("orgs/" ++ org ++ "/repos") (Some data) None.

Definition get_repository (owner repo : string) : M pyval :=
  make_request "GET" ("repos/" ++ owner ++ "/" ++ repo) None None.

Definition delete_repository (owner repo : string) : M pyval :=
  make_request "DELETE" ("repos/" ++ owner ++ "/" ++ repo) None None.

Definition list_org_repositories (org : string) : M pyval :=
  make_request "GET" ("orgs/" ++ org ++ "/repos") None None.

Definition fork_repository (owner repo : string)
    (organization : option string) : M pyval :=
  let data := [] in
  let data := set_if (truthy (py organization)) "organization" (py organization) data in
  make_request "POST" ("repos/" ++ owner ++ "/" ++ repo ++ "/forks") (Some data) None.

Definition search_repositories (q : string) (topic include_desc : bool)
    (uid priority_owner_id starred_by : option Z)
    (private is_profile template archived : option bool)
    (mode : option string) (exclusive : option bool)
    (sort order : option string) (page limit : option Z) : M pyval :=
  let params := [ ("q", py q) ] in
  let params := set_if (truthy (py topic)) "topic" (py topic) params in
  let params := set_if (truthy (py include_desc)) "includeDesc" (py include_desc) params in
  let params := set_if (truthy (py uid)) "uid" (py uid) params in
  let params := set_if (truthy (py priority_owner_id)) "priority_owner_id" (py priority_owner_id) params in
  let params := set_if (truthy (py starred_by)) "starredBy" (py starred_by) params in
  let params := set_if (is_not_None (py private)) "private" (py private) params in
  let params := set_if (is_not_None (py is_profile)) "is_profile" (py is_profile) params in
  let params := set_if (is_not_None (py template)) "template" (py template) params in
  let params := set_if (is_not_None (py archived)) "archived" (py archived) params in
  let params := set_if (truthy (py mode)) "mode" (py mode) params in
  let params := set_if (is_not_None (py exclusive)) "exclusive" (py exclusive) params in
  let params := set_if (truthy (py sort)) "sort" (py sort) params in
  let params := set_if (truthy (py order)) "order" (py order) params in
  let params := set_if (truthy (py page)) "page" (py page) params in
  let params := set_if (truthy (py limit)) "limit" (py limit) params in
  make_request "GET" "repos/search" None (Some params).

Definition update_repository (owner repo : string)
    (description website : option string)
    (private has_issues has_wiki : option bool) : M pyval :=
  let data := [] in
  let data := set_if (is_not_None (py description)) "description" (py description) data in
  let data := set_if (is_not_None (py website)) "website" (py website) data in
  let data := set_if (is_not_None (py private)) "private" (py private) data in
  let data := set_if (is_not_None (py has_issues)) "has_issues" (py has_issues) data in
  let data := set_if (is_not_None (py has_wiki)) "has_wiki" (py has_wiki) data in
  make_request "PATCH" ("repos/" ++ owner ++ "/" ++ repo) (Some data) None.

Definition create_issue (owner repo title body : string)
    (milestone_id : option Z) (labels : option (list Z)) : M pyval :=
  let data := [ ("title", py title); ("body", py body) ] in
  let data := set_if (truthy (py milestone_id)) "milestone" (py milestone_id) data in
  let data := set_if (truthy (py labels)) "labels" (py labels) data in
  make_request "POST" ("repos/" ++ owner ++ "/" ++ repo ++ "/issues") (Some data) None.

Definition search_issues (owner repo q state : string) : M pyval :=
  make_request "GET" ("repos/" ++ owner ++ "/" ++ repo ++ "/issues") None
    (Some [ ("q", py q); ("state", py state) ]).

Definition update_issue (owner repo : string) (index : Z)
    (title body state : option string) (milestone_id : option Z)
    (labels : option (list Z)) : M pyval :=
  let data := [] in
  let data := set_if (is_not_None (py title)) "title" (py title) data in
  let data := set_if (is_not_None (py body)) "body" (py body) data in
  let data := set_if (is_not_None (py state)) "state" (py state) data in
  let data := set_if (is_not_None (py milestone_id)) "milestone" (py milestone_id) data in
  let data := set_if (is_not_None (py labels)) "labels" (py labels) data in
  make_request "PATCH"
    ("repos/" ++ owner ++ "/" ++ repo ++ "/issues/" ++ str_int index)
    (Some data) None.

Definition get_issue (owner repo : string) (index : Z) : M pyval :=
  make_request "GET"
    ("repos/" ++ owner ++ "/" ++ repo ++ "/issues/" ++ str_int index) None None.

Definition list_issue_comments (owner repo : string) (index : Z) : M pyval :=
  make_request "GET"
    ("repos/" ++ owner ++ "/" ++ repo ++ "/issues/" ++ str_int index ++ "/comments")
    None None.

Definition create_issue_comment (owner repo : string) (index : Z)
    (body : string) : M pyval :=
  let data := [ ("body", py body) ] in
  make_request "POST"
    ("repos/" ++ owner ++ "/" ++ repo ++ "/issues/" ++ str_int index ++ "/comments")
    (Some data) None.

Definition add_issue_label (owner repo : string) (index : Z)
    (labels : list Z) : M pyval :=
  let data := [ ("labels", py labels) ] in
  make_request "POST"
    ("repos/" ++ owner ++ "/" ++ repo ++ "/issues/" ++ str_int index ++ "/labels")
    (Some data) None.

Definition remove_issue_label (owner repo : string) (index label_id : Z) : M pyval :=
  make_request "DELETE"
    ("repos/" ++ owner ++ "/" ++ repo ++ "/issues/" ++ str_int index
     ++ "/labels/" ++ str_int label_id)
    None None.

Definition list_labels (owner repo : string) (page limit : Z) : M pyval :=
  make_request "GET" ("repos/" ++ owner ++ "/" ++ repo ++ "/labels") None
    (Some [ ("page", py page); ("limit", py limit) ]).

Definition create_label (owner repo name color : string)
    (description : option string) (exclusive : bool) : M pyval :=
  let data := [ ("name", py name); ("color", py color);
                ("exclusive", py exclusive) ] in
  let data := set_if (truthy (py description)) "description" (py description) data in
  make_request "POST" ("repos/" ++ owner ++ "/" ++ repo ++ "/labels") (Some data) None.

(** ** Tool dispatch

    A tool call names the operation and carries the arguments the caller
    supplied: required ones as they are, optional ones as [Some v] when
    supplied and [None] when left out.  Binding fills in the default of
    the signature for what was left out. *)
Inductive call : Type :=
| ListRepositories
| CreateRepository (name : string) (description : option string)
    (private auto_init : option bool)
    (gitignores license readme issue_labels default_branch : option string)
| CreateOrgRepository (org name : string) (description : option string)
    (private auto_init : option bool)
    (gitignores license readme issue_labels default_branch : option string)
| GetRepository (owner repo : string)
| DeleteRepository (owner repo : string)
| ListOrgRepositories (org : string)
| ForkRepository (owner repo : string) (organization : option string)
| SearchRepositories (q : string) (topic include_desc : option bool)
    (uid priority_owner_id starred_by : option Z)
    (private is_profile template archived : option bool)
    (mode : option string) (exclusive : option bool)
    (sort order : option string) (page limit : option Z)
| UpdateRepository (owner repo : string) (description website : option string)
    (private has_issues has_wiki : option bool)
| CreateIssue (owner repo title body : string) (milestone_id : option Z)
    (labels : option (list Z))
| SearchIssues (owner repo q : string) (state : option string)
| UpdateIssue (owner repo : string) (index : Z)
    (title body state : option string) (milestone_id : option Z)
    (labels : option (list Z))
| GetIssue (owner repo : string) (index : Z)
| ListIssueComments (owner repo : string) (index : Z)
| CreateIssueComment (owner repo : string) (index : Z) (body : string)
| AddIssueLabel (owner repo : string) (index : Z) (labels : list Z)
| RemoveIssueLabel (owner repo : string) (index label_id : Z)
| ListLabels (owner repo : string) (page limit : option Z)
| CreateLabel (owner repo name color : string) (description : option string)
    (exclusive : option bool).

(** The value a parameter is bound to: the supplied one, else the
    default written in the signature. *)
Definition bound {A} (dflt : A) (supplied : option A) : A :=
  match supplied with Some a => a | None => dflt end.

Definition invoke (c : call) : M pyval :=
  match c with
  | ListRepositories => list_repositories
  | CreateRepository name description private auto_init gitignores license
      readme issue_labels default_branch =>
      create_repository name description (bound false private)
        (bound false auto_init) gitignores license readme issue_labels
        (bound "main" default_branch)
  | CreateOrgRepository org name description private auto_init gitignores
      license readme issue_labels default_branch =>
      create_org_repository org name description (bound false private)
        (bound false auto_init) gitignores license readme issue_labels
        (bound "main" default_branch)
  | GetRepository owner repo => get_repository owner repo
  | DeleteRepository owner repo => delete_repository owner repo
  | ListOrgRepositories org => list_org_repositories org
  | ForkRepository owner repo organization =>
      fork_repository owner repo organization
  | SearchRepositories q topic include_desc uid priority_owner_id starred_by
      private is_profile template archived mode exclusive sort order page
      limit =>
      search_repositories q (bound false topic) (bound false include_desc)
        uid priority_owner_id starred_by private is_profile template
        archived mode exclusive sort order page limit
  | UpdateRepository owner repo description website private has_issues
      has_wiki =>
      update_repository owner repo description website private has_issues
        has_wiki
  | CreateIssue owner repo title body milestone_id labels =>
      create_issue owner repo title body milestone_id labels
  | SearchIssues owner repo q state =>
      search_issues owner repo q (bound "open" state)
  | UpdateIssue owner repo index title body state milestone_id labels =>
      update_issue owner repo index title body state milestone_id labels
  | GetIssue owner repo index => get_issue owner repo index
  | ListIssueComments owner repo index => list_issue_comments owner repo index
  | CreateIssueComment owner repo index body =>
      create_issue_comment owner repo index body
  | AddIssueLabel owner repo index labels =>
      add_issue_label owner repo index labels
  | RemoveIssueLabel owner repo index label_id =>
      remove_issue_label owner repo index label_id
  | ListLabels owner repo page limit =>
      list_labels owner repo (bound 1 page) (bound 20 limit)
  | CreateLabel owner repo name color description exclusive =>
      create_label owner repo name color description (bound false exclusive)
  end.

(** ** Observing a tool call *)

(** [issues c w rq]: run in world [w], the call [c] puts [rq] on the wire
    and nothing else. *)
Definition issues (c : call) (w : world) (rq : http_request) : Prop :=
  sent (final (invoke c w)) = (sent w ++ [rq])%list.

(** What a lookup in the outgoing dict finds for an optional argument,
    by the guard the code puts on it. *)
Definition when_supplied {A} `{ToPy A} (supplied : option A) : option pyval :=
  match supplied with Some a => Some (py a) | None => None end.

Definition when_truthy {A} `{ToPy A} (supplied : option A) : option pyval :=
  match supplied with
  | Some a => if truthy (py a) then Some (py a) else None
  | None => None
  end.

(** A call that supplies the required arguments and nothing else. *)
Definition only_required (c : call) : bool :=
  match c with
  | ListRepositories => true
  | CreateRepository _ None None None None None None None None => true
  | CreateOrgRepository _ _ None None None None None None None None => true
  | GetRepository _ _ => true
  | DeleteRepository _ _ => true
  | ListOrgRepositories _ => true
  | ForkRepository _ _ None => true
  | SearchRepositories _ None None None None None None None None None None
      None None None None None => true
  | UpdateRepository _ _ None None None None None => true
  | CreateIssue _ _ _ _ None None => true
  | SearchIssues _ _ _ None => true
  | UpdateIssue _ _ _ None None None None None => true
  | GetIssue _ _ _ => true
  | ListIssueComments _ _ _ => true
  | CreateIssueComment _ _ _ _ => true
  | AddIssueLabel _ _ _ _ => true
  | RemoveIssueLabel _ _ _ _ => true
  | ListLabels _ _ None None => true
  | CreateLabel _ _ _ _ None None => true
  | _ => false
  end.

(** The body and the query parameters of such a call: the required fields,
    and the optional fields whose signature default is not [None]. *)
Definition bare_payload (c : call) : option dict * option dict :=
  match c with
  | CreateRepository name _ _ _ _ _ _ _ _
  | CreateOrgRepository _ name _ _ _ _ _ _ _ _ =>
      (Some [ ("name", PStr name); ("private", PBool false);
              ("auto_init", PBool false); ("default_branch", PStr "main") ],
       None)
  | ForkRepository _ _ _ => (Some [], None)
  | SearchRepositories q _ _ _ _ _ _ _ _ _ _ _ _ _ _ _ =>
      (None, Some [ ("q", PStr q) ])
  | UpdateRepository _ _ _ _ _ _ _ => (Some [], None)
  | CreateIssue _ _ title body _ _ =>
      (Some [ ("title", PStr title); ("body", PStr body) ], None)
  | SearchIssues _ _ q _ =>
      (None, Some [ ("q", PStr q); ("state", PStr "open") ])
  | UpdateIssue _ _ _ _ _ _ _ _ => (Some [], None)
  | CreateIssueComment _ _ _ body => (Some [ ("body", PStr body) ], None)
  | AddIssueLabel _ _ _ labels =>
      (Some [ ("labels", PList (map PInt labels)) ], None)
  | ListLabels _ _ _ _ =>
      (None, Some [ ("page", PInt 1); ("limit", PInt 20) ])
  | CreateLabel _ _ name color _ _ =>
      (Some [ ("name", PStr name); ("color", PStr color);
              ("exclusive", PBool false) ], None)
  | ListRepositories | GetRepository _ _ | DeleteRepository _ _
  | ListOrgRepositories _ | GetIssue _ _ _ | ListIssueComments _ _ _
  | RemoveIssueLabel _ _ _ _ => (None, None)
  end.

(** Whether a lookup found the key. *)
Definition given (o : option pyval) : bool :=
  match o with Some _ => true | None => false end.

(** The keys that were sent, out of the candidates in their order. *)
Definition sent_keys (candidates : list (string * bool)) : list string :=
  map fst (filter snd candidates).

(** A run of guarded assignments [if c: d[k] = v], first to last. *)
Fixpoint assign_each (steps : list (bool * string * pyval)) (d : dict) : dict :=
  match steps with
  | [] => d
  | (c, k, v) :: rest => assign_each rest (set_if c k v d)
  end.

(** ** Reasoning about dicts *)

Lemma dict_get_set (k k' : string) (v : pyval) (d : dict) :
  dict_get k (dict_set k' v d) =
  if String.eqb k k' then Some v else dict_get k d.
Proof.
  induction d as [|[k0 v0] d IH]; simpl.
  - reflexivity.
  - destruct (String.eqb_spec k' k0) as [->|Hne]; simpl.
    + destruct (String.eqb k k0); reflexivity.
    + rewrite IH.
      destruct (String.eqb_spec k k0) as [->|Hne']; [|reflexivity].
      destruct (String.eqb_spec k0 k') as [->|_]; [contradiction|reflexivity].
Qed.

Lemma dict_get_set_if (c : bool) (k k' : string) (v : pyval) (d : dict) :
  dict_get k (set_if c k' v d) =
  if String.eqb k k' && c then Some v else dict_get k d.
Proof.
  unfold set_if. destruct c.
  - rewrite dict_get_set, andb_true_r. reflexivity.
  - rewrite andb_false_r. reflexivity.
Qed.

Lemma dict_get_keys (k : string) (d : dict) :
  dict_get k d = None <-> ~ In k (dict_keys d).
Proof.
  induction d as [|[k0 v0] d IH]; simpl.
  - tauto.
  - destruct (String.eqb_spec k k0) as [->|Hne].
    + split; [discriminate | intros H; exfalso; apply H; now left].
    + rewrite IH. split; intros H; [intros [E|E]; [congruence|tauto] | tauto].
Qed.

(** ** The transport client *)

(** [make_request] run on a world, step by step. *)
Lemma make_request_run method endpoint data params w :
  make_request method endpoint data params w =
  let rq := build_request method endpoint data params in
  let w1 := {| sent := (sent w ++ [rq])%list;
               logged := (logged w ++ [(INFO, ("Request: " ++ method ++ " "
                                                ++ rq_url rq)%string)])%list |} in
  match remote rq with
  | Failed e => (Raise e, w1)
  | Responded r =>
      if is_success r then
        if status_code r =? 204 then (Return PNone, w1)
        else match json_body r with
             | inr j => (Return (decode j), w1)
             | inl msg =>
                 (Return (PDict [ ("error", PStr msg) ]),
                  {| sent := sent w1;
                     logged := (logged w1 ++ [(ERROR, ("Unexpected Error: " ++ msg)%string)])%list |})
             end
      else
        (Return (PDict [ ("error", PStr ("HTTP Error: " ++ str_int (status_code r)));
                         ("details", PStr (text r)) ]),
         {| sent := sent w1;
            logged := (logged w1 ++ [(ERROR, ("HTTP Error: " ++ str_int (status_code r)
                                              ++ " - " ++ text r)%string)])%list |})
  end.
Proof.
  unfold make_request, build_request.
  cbv [bind ret raise catch Monad_M MonadExc_M M_bind M_ret M_raise M_catch
       client_request logger_info logger_error raise_for_status response_json
       rq_url sent logged].
  destruct (remote _) as [r|e]; [|reflexivity].
  destruct (is_success r); [|reflexivity].
  destruct (status_code r =? 204); [reflexivity|].
  destruct (json_body r); reflexivity.
Qed.

(** One call of [make_request] puts one request on the wire, whatever
    the transport does with it. *)
Lemma make_request_sent method endpoint data params w :
  sent (final (make_request method endpoint data params w)) =
  (sent w ++ [build_request method endpoint data params])%list.
Proof.
  rewrite make_request_run. cbv zeta.
  destruct (remote _) as [r|e]; [|reflexivity].
  destruct (is_success r); [|reflexivity].
  destruct (status_code r =? 204); [reflexivity|].
  destruct (json_body r); reflexivity.
Qed.

(** The transport raised: nothing catches it. *)
Lemma make_request_transport_raises method endpoint data params w e :
  remote (build_request method endpoint data params) = Failed e ->
  result (make_request method endpoint data params w) = Raise e.
Proof.
  intros H. rewrite make_request_run. cbv zeta. rewrite H. reflexivity.
Qed.

(** A response outside 2xx becomes an Error Record. *)
Lemma make_request_rejected method endpoint data params w r :
  remote (build_request method endpoint data params) = Responded r ->
  is_success r = false ->
  result (make_request method endpoint data params w) =
  Return (PDict [ ("error", PStr ("HTTP Error: " ++ str_int (status_code r)));
                  ("details", PStr (text r)) ]).
Proof.
  intros H Hs. rewrite make_request_run. cbv zeta. rewrite H, Hs. reflexivity.
Qed.

(** Status 204: [None], and [response.json()] is not consulted. *)
Lemma make_request_no_content method endpoint data params w r :
  remote (build_request method endpoint data params) = Responded r ->
  status_code r = 204 ->
  result (make_request method endpoint data params w) = Return PNone.
Proof.
  intros H Hs. rewrite make_request_run. cbv zeta. rewrite H.
  unfold is_success. rewrite Hs. reflexivity.
Qed.

(** Any other 2xx status with a body that parses: the decoded document. *)
Lemma make_request_decoded method endpoint data params w r j :
  remote (build_request method endpoint data params) = Responded r ->
  is_success r = true -> status_code r <> 204 -> json_body r = inr j ->
  result (make_request method endpoint data params w) = Return (decode j).
Proof.
  intros H Hs Hn Hj. rewrite make_request_run. cbv zeta. rewrite H, Hs, Hj.
  destruct (Z.eqb_spec (status_code r) 204) as [E|_]; [contradiction|reflexivity].
Qed.

(** A 2xx body that does not parse: an Error Record with the message. *)
Lemma make_request_malformed method endpoint data params w r msg :
  remote (build_request method endpoint data params) = Responded r ->
  is_success r = true -> status_code r <> 204 -> json_body r = inl msg ->
  result (make_request method endpoint data params w) =
  Return (PDict [ ("error", PStr msg) ]).
Proof.
  intros H Hs Hn Hj. rewrite make_request_run. cbv zeta. rewrite H, Hs, Hj.
  destruct (Z.eqb_spec (status_code r) 204) as [E|_]; [contradiction|reflexivity].
Qed.

(** ** The request translator *)

(** Every tool call is one call of [make_request]. *)
Lemma invoke_make_request (c : call) :
  exists method endpoint data params,
    invoke c = make_request method endpoint data params.
Proof. destruct c; cbn [invoke]; do 4 eexists; reflexivity. Qed.

(** So every tool call puts exactly one request on the wire. *)
Lemma invoke_one_request (c : call) (w : world) :
  exists rq, sent (final (invoke c w)) = (sent w ++ [rq])%list.
Proof.
  destruct (invoke_make_request c) as (m & e & d & p & ->).
  eexists. apply make_request_sent.
Qed.

(** C7: [create_repository] called with [name="demo"] and nothing else
    issues exactly one request: method POST, path [user/repos], and the
    JSON body [{"name":"demo","private":false,"auto_init":false,
    "default_branch":"main"}], in that order and with no other key. *)
Theorem create_repository_demo (w : world) :
  issues (CreateRepository "demo" None None None None None None None None) w
    {| rq_method := "POST";
       rq_url := GITEA_MCP_API_URL ++ "/api/v1/" ++ "user/repos";
       rq_headers := get_headers;
       rq_json := Some [ ("name", PStr "demo"); ("private", PBool false);
                         ("auto_init", PBool false);
                         ("default_branch", PStr "main") ];
       rq_params := None |}.
Proof.
  unfold issues. cbn [invoke]. unfold create_repository.
  rewrite make_request_sent. reflexivity.
Qed.

(** C8: [update_issue] at index 7 with only [state="closed"] supplied
    issues one request: method PATCH, path
    [repos/{owner}/{repo}/issues/7], body exactly [{"state":"closed"}]. *)
Theorem update_issue_close (owner repo : string) (w : world) :
  issues (UpdateIssue owner repo 7 None None (Some "closed") None None) w
    {| rq_method := "PATCH";
       rq_url := GITEA_MCP_API_URL ++ "/api/v1/" ++
                 "repos/" ++ owner ++ "/" ++ repo ++ "/issues/7";
       rq_headers := get_headers;
       rq_json := Some [ ("state", PStr "closed") ];
       rq_params := None |}.
Proof.
  unfold issues. cbn [invoke]. unfold update_issue.
  rewrite make_request_sent. reflexivity.
Qed.

(** C10: [fork_repository] posts to [repos/{owner}/{repo}/forks] and
    always passes a JSON body: the empty object when [organization] is
    unset or the empty string, and [{"organization": organization}] when
    it is a non-empty string. *)
Theorem fork_repository_body (owner repo : string)
    (organization : option string) (w : world) :
  issues (ForkRepository owner repo organization) w
    {| rq_method := "POST";
       rq_url := GITEA_MCP_API_URL ++ "/api/v1/" ++
                 "repos/" ++ owner ++ "/" ++ repo ++ "/forks";
       rq_headers := get_headers;
       rq_json := Some match organization with
                       | None => []
                       | Some o => if String.eqb o EmptyString then []
                                   else [ ("organization", PStr o) ]
                       end;
       rq_params := None |}.
Proof.
  unfold issues. cbn [invoke]. unfold fork_repository.
  rewrite make_request_sent. unfold build_request. do 3 f_equal.
  destruct organization as [o|]; [|reflexivity].
  cbn. destruct (String.eqb o EmptyString); reflexivity.
Qed.

Ltac issue_request :=
  cbn [invoke];
  match goal with
  | |- exists rq, issues ?c ?w rq /\ _ =>
      eexists; split; [unfold issues; apply make_request_sent|]
  end;
  cbn [build_request rq_json rq_params opt_get].

Ltac lookup_keys :=
  rewrite ?dict_get_set_if;
  cbn [dict_get String.eqb Ascii.eqb Bool.eqb andb].

Ltac by_guard :=
  unfold when_supplied, when_truthy, bound;
  repeat match goal with
         | |- context [match ?o with Some _ => _ | None => _ end] =>
             is_var o; destruct o
         end;
  try reflexivity;
  repeat match goal with
         | b : bool |- _ => destruct b
         end;
  reflexivity.

(** What [search_repositories] puts in the query parameters, key by key. *)
Lemma search_repositories_params q topic include_desc uid priority_owner_id
    starred_by private is_profile template archived mode exclusive sort order
    page limit w :
  exists rq,
    issues (SearchRepositories q topic include_desc uid priority_owner_id
              starred_by private is_profile template archived mode exclusive
              sort order page limit) w rq /\
    rq_json rq = None /\
    opt_get "q" (rq_params rq) = Some (PStr q) /\
    opt_get "topic" (rq_params rq) = when_truthy topic /\
    opt_get "includeDesc" (rq_params rq) = when_truthy include_desc /\
    opt_get "uid" (rq_params rq) = when_truthy uid /\
    opt_get "priority_owner_id" (rq_params rq) = when_truthy priority_owner_id /\
    opt_get "starredBy" (rq_params rq) = when_truthy starred_by /\
    opt_get "private" (rq_params rq) = when_supplied private /\
    opt_get "is_profile" (rq_params rq) = when_supplied is_profile /\
    opt_get "template" (rq_params rq) = when_supplied template /\
    opt_get "archived" (rq_params rq) = when_supplied archived /\
    opt_get "mode" (rq_params rq) = when_truthy mode /\
    opt_get "exclusive" (rq_params rq) = when_supplied exclusive /\
    opt_get "sort" (rq_params rq) = when_truthy sort /\
    opt_get "order" (rq_params rq) = when_truthy order /\
    opt_get "page" (rq_params rq) = when_truthy page /\
    opt_get "limit" (rq_params rq) = when_truthy limit.
Proof.
  issue_request. unfold search_repositories.
  cbn [build_request rq_json rq_params opt_get].
  repeat split; lookup_keys; by_guard.
Qed.

(** C1 (as the code has it): an optional boolean or numeric argument is
    sent according to the guard on it.  Guarded by [is not None]
    ([search_repositories]: private, is_profile, template, archived,
    exclusive; [update_repository]: private, has_issues, has_wiki;
    [update_issue]: milestone_id): the key carries the supplied value, also
    [false] and [0], and is absent when the argument is unset.  Guarded by
    truthiness ([search_repositories]: topic, include_desc, uid,
    priority_owner_id, starred_by, page, limit; [create_issue]:
    milestone_id): the key is sent only for [true] or a non-zero number,
    so a supplied [false] or [0] leaves no key, like an unset argument.
    Unguarded, with a default in the signature ([create_repository] and
    [create_org_repository]: private, auto_init; [list_labels]: page,
    limit; [create_label]: exclusive): the key is always sent, with the
    supplied value or else the default. *)
Theorem optional_scalars_follow_their_guard :
  (forall q topic include_desc uid priority_owner_id starred_by private
          is_profile template archived mode exclusive sort order page limit w,
     exists rq,
       issues (SearchRepositories q topic include_desc uid priority_owner_id
                 starred_by private is_profile template archived mode
                 exclusive sort order page limit) w rq /\
       opt_get "private" (rq_params rq) = when_supplied private /\
       opt_get "is_profile" (rq_params rq) = when_supplied is_profile /\
       opt_get "template" (rq_params rq) = when_supplied template /\
       opt_get "archived" (rq_params rq) = when_supplied archived /\
       opt_get "exclusive" (rq_params rq) = when_supplied exclusive /\
       opt_get "topic" (rq_params rq) = when_truthy topic /\
       opt_get "includeDesc" (rq_params rq) = when_truthy include_desc /\
       opt_get "uid" (rq_params rq) = when_truthy uid /\
       opt_get "priority_owner_id" (rq_params rq) = when_truthy priority_owner_id /\
       opt_get "starredBy" (rq_params rq) = when_truthy starred_by /\
       opt_get "page" (rq_params rq) = when_truthy page /\
       opt_get "limit" (rq_params rq) = when_truthy limit) /\
  (forall owner repo description website private has_issues has_wiki w,
     exists rq,
       issues (UpdateRepository owner repo description website private
                 has_issues has_wiki) w rq /\
       opt_get "private" (rq_json rq) = when_supplied private /\
       opt_get "has_issues" (rq_json rq) = when_supplied has_issues /\
       opt_get "has_wiki" (rq_json rq) = when_supplied has_wiki) /\
  (forall owner repo index title body state milestone_id labels w,
     exists rq,
       issues (UpdateIssue owner repo index title body state milestone_id
                 labels) w rq /\
       opt_get "milestone" (rq_json rq) = when_supplied milestone_id) /\
  (forall owner repo title body milestone_id labels w,
     exists rq,
       issues (CreateIssue owner repo title body milestone_id labels) w rq /\
       opt_get "milestone" (rq_json rq) = when_truthy milestone_id) /\
  (forall name description private auto_init gitignores license readme
          issue_labels default_branch w,
     exists rq,
       issues (CreateRepository name description private auto_init gitignores
                 license readme issue_labels default_branch) w rq /\
       opt_get "private" (rq_json rq) = Some (PBool (bound false private)) /\
       opt_get "auto_init" (rq_json rq) = Some (PBool (bound false auto_init))) /\
  (forall org name description private auto_init gitignores license readme
          issue_labels default_branch w,
     exists rq,
       issues (CreateOrgRepository org name description private auto_init
                 gitignores license readme issue_labels default_branch) w rq /\
       opt_get "private" (rq_json rq) = Some (PBool (bound false private)) /\
       opt_get "auto_init" (rq_json rq) = Some (PBool (bound false auto_init))) /\
  (forall owner repo page limit w,
     exists rq,
       issues (ListLabels owner repo page limit) w rq /\
       opt_get "page" (rq_params rq) = Some (PInt (bound 1 page)) /\
       opt_get "limit" (rq_params rq) = Some (PInt (bound 20 limit))) /\
  (forall owner repo name color description exclusive w,
     exists rq,
       issues (CreateLabel owner repo name color description exclusive) w rq /\
       opt_get "exclusive" (rq_json rq) = Some (PBool (bound false exclusive))).
Proof.
  repeat match goal with |- _ /\ _ => split end; intros.
  - destruct (search_repositories_params q topic include_desc uid
                priority_owner_id starred_by private is_profile template
                archived mode exclusive sort order page limit w)
      as (rq & H & _ & _ & Ht & Hd & Hu & Hp & Hs & Hpr & Hip & Hte & Ha & _
          & He & _ & _ & Hpg & Hl).
    exists rq. repeat split; assumption.
  - issue_request. unfold update_repository.
    repeat split; lookup_keys; by_guard.
  - issue_request. unfold update_issue. lookup_keys. by_guard.
  - issue_request. unfold create_issue. lookup_keys. by_guard.
  - issue_request. unfold create_repository.
    repeat split; lookup_keys; reflexivity.
  - issue_request. unfold create_org_repository.
    repeat split; lookup_keys; reflexivity.
  - issue_request. unfold list_labels. cbn [opt_get dict_get].
    repeat split; lookup_keys; reflexivity.
  - issue_request. unfold create_label. lookup_keys. reflexivity.
Qed.

(** C3 (as the code has it): a label ID list is sent according to the
    guard on it.  [update_issue] tests [labels is not None]: an empty list
    is sent as an empty list ([labels=[]] alone sends [{"labels": []}]) and
    an unset argument leaves no key.  [create_issue] tests truthiness: the
    key is sent only for a non-empty list, so [labels=[]] leaves no
    [labels] key, like an unset argument. *)
Theorem label_lists_follow_their_guard :
  (forall owner repo index title body state milestone_id labels w,
     exists rq,
       issues (UpdateIssue owner repo index title body state milestone_id
                 labels) w rq /\
       opt_get "labels" (rq_json rq) = when_supplied labels) /\
  (forall owner repo index w,
     exists rq,
       issues (UpdateIssue owner repo index None None None None (Some [])) w rq /\
       rq_json rq = Some [ ("labels", PList []) ]) /\
  (forall owner repo title body milestone_id labels w,
     exists rq,
       issues (CreateIssue owner repo title body milestone_id labels) w rq /\
       opt_get "labels" (rq_json rq) = when_truthy labels) /\
  when_truthy (Some (@nil Z)) = None /\
  when_supplied (Some (@nil Z)) = Some (PList []).
Proof.
  repeat match goal with |- _ /\ _ => split end; intros; try reflexivity.
  - issue_request. unfold update_issue. lookup_keys. by_guard.
  - issue_request. reflexivity.
  - issue_request. unfold create_issue. lookup_keys. by_guard.
Qed.

(** No body any tool builds has a key named [milestone_id]. *)
Lemma no_milestone_id_key (c : call) (w : world) :
  exists rq, issues c w rq /\ opt_get "milestone_id" (rq_json rq) = None.
Proof.
  destruct c; issue_request;
    try reflexivity;
    unfold create_repository, create_org_repository, fork_repository,
      update_repository, create_issue, update_issue, create_issue_comment,
      add_issue_label, create_label;
    lookup_keys; reflexivity.
Qed.

(** C9 (as the code has it): the milestone id travels under the key
    ["milestone"].  [update_issue] sends every supplied [milestone_id]
    there; [create_issue] sends a supplied [milestone_id] there when it is
    non-zero and sends no milestone key for [0].  No outgoing body of any
    operation has a key named ["milestone_id"]. *)
Theorem milestone_key :
  (forall owner repo index title body state milestone_id labels w,
     exists rq,
       issues (UpdateIssue owner repo index title body state milestone_id
                 labels) w rq /\
       opt_get "milestone" (rq_json rq) = when_supplied milestone_id) /\
  (forall owner repo title body milestone_id labels w,
     exists rq,
       issues (CreateIssue owner repo title body milestone_id labels) w rq /\
       opt_get "milestone" (rq_json rq) =
       match milestone_id with
       | Some m => if m =? 0 then None else Some (PInt m)
       | None => None
       end) /\
  (forall c w,
     exists rq, issues c w rq /\ opt_get "milestone_id" (rq_json rq) = None).
Proof.
  repeat match goal with |- _ /\ _ => split end; intros.
  - issue_request. unfold update_issue. lookup_keys. by_guard.
  - issue_request. unfold create_issue. lookup_keys.
    destruct milestone_id as [m|]; [|reflexivity].
    cbn. destruct (m =? 0); reflexivity.
  - apply no_milestone_id_key.
Qed.

Ltac all_unset H :=
  repeat match type of H with
         | match ?o with Some _ => _ | None => _ end = true =>
             destruct o; [discriminate H|]
         end.

(** C4 (as the code has it): a call that supplies only the required
    arguments sends the required fields and, besides them, exactly the
    optional fields whose signature default is not [None], at their
    default: [create_repository] and [create_org_repository] send
    private=false, auto_init=false and default_branch="main",
    [search_issues] sends state="open", [list_labels] sends page=1 and
    limit=20, [create_label] sends exclusive=false.  No other optional
    field or query parameter is sent. *)
Theorem only_required_payload (c : call) (w : world) :
  only_required c = true ->
  exists rq,
    issues c w rq /\
    rq_json rq = fst (bare_payload c) /\
    rq_params rq = snd (bare_payload c).
Proof.
  intros H. destruct c; cbn [only_required] in H; all_unset H;
    issue_request; split; reflexivity.
Qed.

(** The request a tool call issues is the one the transport answers. *)
Lemma invoke_result (c : call) (w : world) (rq : http_request) :
  issues c w rq ->
  exists method endpoint data params,
    invoke c = make_request method endpoint data params /\
    rq = build_request method endpoint data params.
Proof.
  intros H. destruct (invoke_make_request c) as (m & e & d & p & E).
  exists m, e, d, p. split; [exact E|].
  unfold issues in H. rewrite E, make_request_sent in H.
  apply app_inv_head in H. now injection H.
Qed.

Lemma outside_success_range (r : http_response) :
  status_code r < 200 \/ 299 < status_code r -> is_success r = false.
Proof.
  intros H. unfold is_success.
  destruct (Z.leb_spec 200 (status_code r)); [|reflexivity].
  destruct (Z.leb_spec (status_code r) 299); [lia|reflexivity].
Qed.

(** C5: when the remote answers a tool call with a status outside
    200..299, the call returns the Error Record
    [{"error": "HTTP Error: <status>", "details": <response text>}]: the
    status code in the message, the raw body text as details, unparsed. *)
Theorem remote_rejection_error_record (c : call) (w : world)
    (rq : http_request) (r : http_response) :
  issues c w rq ->
  remote rq = Responded r ->
  status_code r < 200 \/ 299 < status_code r ->
  result (invoke c w) =
  Return (PDict [ ("error", PStr ("HTTP Error: " ++ str_int (status_code r)));
                  ("details", PStr (text r)) ]).
Proof.
  intros Hi Hr Hs.
  destruct (invoke_result Hi) as (m & e & d & p & -> & ->).
  apply make_request_rejected; [exact Hr | now apply outside_success_range].
Qed.

(** C6 (as the code has it): when the remote answers a tool call with
    status 204, the call returns [None], whatever the response body is and
    whether or not it would parse.  [None] is not an Error Record; it is
    the value a JSON [null] body decodes to. *)
Theorem no_content_returns_None (c : call) (w : world)
    (rq : http_request) (r : http_response) :
  issues c w rq ->
  remote rq = Responded r ->
  status_code r = 204 ->
  result (invoke c w) = Return PNone /\
  returns_error_record (result (invoke c w)) = false /\
  decode JNull = PNone.
Proof.
  intros Hi Hr Hs.
  destruct (invoke_result Hi) as (m & e & d & p & -> & ->).
  rewrite make_request_no_content with (r := r) by assumption.
  repeat split; reflexivity.
Qed.

(** A 2xx answer whose body is not JSON also ends in an Error Record. *)
Lemma malformed_body_error_record (c : call) (w : world)
    (rq : http_request) (r : http_response) (msg : string) :
  issues c w rq ->
  remote rq = Responded r ->
  is_success r = true -> status_code r <> 204 -> json_body r = inl msg ->
  result (invoke c w) = Return (PDict [ ("error", PStr msg) ]).
Proof.
  intros Hi Hr Hs Hn Hj.
  destruct (invoke_result Hi) as (m & e & d & p & -> & ->).
  now apply make_request_malformed with (r := r).
Qed.

(** An exception of the transport leaves the tool call as it is. *)
Lemma transport_exception_propagates (c : call) (w : world)
    (rq : http_request) (e : exn) :
  issues c w rq ->
  remote rq = Failed e ->
  result (invoke c w) = Raise e.
Proof.
  intros Hi Hr.
  destruct (invoke_result Hi) as (m & en & d & p & -> & ->).
  now apply make_request_transport_raises.
Qed.

(** ** More on the transport client *)


(** A tool call ends in an exception exactly when the transport raised
    one: a bad status or an unparsable body never raises. *)
Theorem raises_only_on_transport_failure (c : call) (w : world)
    (rq : http_request) (e : exn) :
  issues c w rq ->
  (result (invoke c w) = Raise e <-> remote rq = Failed e).
Proof.
  intros Hi. destruct (invoke_result Hi) as (m & en & d & p & -> & ->).
  rewrite make_request_run. cbv zeta.
  destruct (remote _) as [r|e'].
  - split; [|discriminate].
    destruct (is_success r); [|discriminate].
    destruct (status_code r =? 204); [discriminate|].
    destruct (json_body r); discriminate.
  - cbn. split; intros [= ->]; reflexivity.
Qed.

(** A 2xx answer other than 204 whose body parses is handed back as the
    decoded document, unchanged. *)
Theorem success_payload_passthrough (c : call) (w : world)
    (rq : http_request) (r : http_response) (j : json) :
  issues c w rq ->
  remote rq = Responded r ->
  200 <= status_code r <= 299 -> status_code r <> 204 ->
  json_body r = inr j ->
  result (invoke c w) = Return (decode j).
Proof.
  intros Hi Hr [Hlo Hhi] Hn Hj.
  destruct (invoke_result Hi) as (m & e & d & p & -> & ->).
  apply make_request_decoded with (r := r); try assumption.
  unfold is_success.
  apply andb_true_intro; split; apply Z.leb_le; assumption.
Qed.

(** A 2xx answer other than 204 whose body does not parse (an empty body
    on a 200 or 201, say) is reported as an Error Record holding only the
    decoder's message, although the remote accepted the request. *)
Theorem unparsable_success_is_error_record (c : call) (w : world)
    (rq : http_request) (r : http_response) (msg : string) :
  issues c w rq ->
  remote rq = Responded r ->
  200 <= status_code r <= 299 -> status_code r <> 204 ->
  json_body r = inl msg ->
  result (invoke c w) = Return (PDict [ ("error", PStr msg) ]).
Proof.
  intros Hi Hr [Hlo Hhi] Hn Hj.
  destruct (invoke_result Hi) as (m & e & d & p & -> & ->).
  apply make_request_malformed with (r := r); try assumption.
  unfold is_success.
  apply andb_true_intro; split; apply Z.leb_le; assumption.
Qed.

(** Every tool call first logs the request line with the method and the
    full URL, and after it at most one more record, an [ERROR]. *)
Theorem request_line_logged (c : call) (w : world) (rq : http_request) :
  issues c w rq ->
  exists rest,
    logged (final (invoke c w)) =
    (logged w ++ (INFO, ("Request: " ++ rq_method rq ++ " " ++ rq_url rq)%string)
              :: rest)%list /\
    (rest = [] \/ exists msg, rest = [ (ERROR, msg) ]).
Proof.
  intros Hi. destruct (invoke_result Hi) as (m & e & d & p & -> & ->).
  rewrite make_request_run. cbv zeta.
  destruct (remote _) as [r|e'].
  - destruct (is_success r).
    + destruct (status_code r =? 204).
      * exists []. split; [reflexivity | now left].
      * destruct (json_body r) as [msg|j].
        -- eexists. split; [cbn; rewrite <- app_assoc; reflexivity|].
           right. eexists. reflexivity.
        -- exists []. split; [reflexivity | now left].
    + eexists. split; [cbn; rewrite <- app_assoc; reflexivity|].
      right. eexists. reflexivity.
  - exists []. split; [reflexivity | now left].
Qed.

(** When the transport raises, the log holds the request line and nothing
    about the failure. *)
Theorem transport_failure_not_logged (c : call) (w : world)
    (rq : http_request) (e : exn) :
  issues c w rq ->
  remote rq = Failed e ->
  logged (final (invoke c w)) =
  (logged w ++ [ (INFO, ("Request: " ++ rq_method rq ++ " " ++ rq_url rq)%string) ])%list.
Proof.
  intros Hi Hr. destruct (invoke_result Hi) as (m & en & d & p & -> & ->).
  rewrite make_request_run. cbv zeta. rewrite Hr. reflexivity.
Qed.

(** ** More on the request translator *)

(** Optional strings follow the guard on them, like the other optionals.
    The create, search and label operations test truthiness, so an empty
    string is dropped like an unset argument; the update operations test
    [is not None], so an empty string is sent (and can clear a field).
    [default_branch] and [search_issues]' [state] are always sent, at the
    supplied value (even an empty one) or else at the default. *)
Theorem optional_strings_follow_their_guard :
  (forall name description private auto_init gitignores license readme
          issue_labels default_branch w,
     exists rq,
       issues (CreateRepository name description private auto_init gitignores
                 license readme issue_labels default_branch) w rq /\
       opt_get "description" (rq_json rq) = when_truthy description /\
       opt_get "gitignores" (rq_json rq) = when_truthy gitignores /\
       opt_get "license" (rq_json rq) = when_truthy license /\
       opt_get "readme" (rq_json rq) = when_truthy readme /\
       opt_get "issue_labels" (rq_json rq) = when_truthy issue_labels /\
       opt_get "default_branch" (rq_json rq) =
       Some (PStr (bound "main" default_branch))) /\
  (forall owner repo name color description exclusive w,
     exists rq,
       issues (CreateLabel owner repo name color description exclusive) w rq /\
       opt_get "description" (rq_json rq) = when_truthy description) /\
  (forall q topic include_desc uid priority_owner_id starred_by private
          is_profile template archived mode exclusive sort order page limit w,
     exists rq,
       issues (SearchRepositories q topic include_desc uid priority_owner_id
                 starred_by private is_profile template archived mode
                 exclusive sort order page limit) w rq /\
       opt_get "mode" (rq_params rq) = when_truthy mode /\
       opt_get "sort" (rq_params rq) = when_truthy sort /\
       opt_get "order" (rq_params rq) = when_truthy order) /\
  (forall owner repo description website private has_issues has_wiki w,
     exists rq,
       issues (UpdateRepository owner repo description website private
                 has_issues has_wiki) w rq /\
       opt_get "description" (rq_json rq) = when_supplied description /\
       opt_get "website" (rq_json rq) = when_supplied website) /\
  (forall owner repo index title body state milestone_id labels w,
     exists rq,
       issues (UpdateIssue owner repo index title body state milestone_id
                 labels) w rq /\
       opt_get "title" (rq_json rq) = when_supplied title /\
       opt_get "body" (rq_json rq) = when_supplied body /\
       opt_get "state" (rq_json rq) = when_supplied state) /\
  (forall owner repo q state w,
     exists rq,
       issues (SearchIssues owner repo q state) w rq /\
       opt_get "state" (rq_params rq) = Some (PStr (bound "open" state))) /\
  when_truthy (Some EmptyString) = None /\
  when_supplied (Some EmptyString) = Some (PStr EmptyString).
Proof.
  repeat match goal with |- _ /\ _ => split end; intros; try reflexivity.
  - issue_request. unfold create_repository.
    repeat split; lookup_keys; by_guard.
  - issue_request. unfold create_label. lookup_keys. by_guard.
  - destruct (search_repositories_params q topic include_desc uid
                priority_owner_id starred_by private is_profile template
                archived mode exclusive sort order page limit w)
      as (rq & H & _ & _ & _ & _ & _ & _ & _ & _ & _ & _ & _ & Hm & _ & Hs
          & Ho & _ & _).
    exists rq. repeat split; assumption.
  - issue_request. unfold update_repository.
    repeat split; lookup_keys; by_guard.
  - issue_request. unfold update_issue.
    repeat split; lookup_keys; by_guard.
  - issue_request. unfold search_issues. reflexivity.
Qed.

(** Required arguments always reach the payload under their key with the
    supplied value, whatever optional arguments come with them. *)
Theorem required_fields_always_sent :
  (forall name description private auto_init gitignores license readme
          issue_labels default_branch w,
     exists rq,
       issues (CreateRepository name description private auto_init gitignores
                 license readme issue_labels default_branch) w rq /\
       opt_get "name" (rq_json rq) = Some (PStr name)) /\
  (forall org name description private auto_init gitignores license readme
          issue_labels default_branch w,
     exists rq,
       issues (CreateOrgRepository org name description private auto_init
                 gitignores license readme issue_labels default_branch) w rq /\
       opt_get "name" (rq_json rq) = Some (PStr name)) /\
  (forall q topic include_desc uid priority_owner_id starred_by private
          is_profile template archived mode exclusive sort order page limit w,
     exists rq,
       issues (SearchRepositories q topic include_desc uid priority_owner_id
                 starred_by private is_profile template archived mode
                 exclusive sort order page limit) w rq /\
       opt_get "q" (rq_params rq) = Some (PStr q)) /\
  (forall owner repo title body milestone_id labels w,
     exists rq,
       issues (CreateIssue owner repo title body milestone_id labels) w rq /\
       opt_get "title" (rq_json rq) = Some (PStr title) /\
       opt_get "body" (rq_json rq) = Some (PStr body)) /\
  (forall owner repo q state w,
     exists rq,
       issues (SearchIssues owner repo q state) w rq /\
       opt_get "q" (rq_params rq) = Some (PStr q)) /\
  (forall owner repo index body w,
     exists rq,
       issues (CreateIssueComment owner repo index body) w rq /\
       rq_json rq = Some [ ("body", PStr body) ]) /\
  (forall owner repo index labels w,
     exists rq,
       issues (AddIssueLabel owner repo index labels) w rq /\
       rq_json rq = Some [ ("labels", PList (map PInt labels)) ]) /\
  (forall owner repo name color description exclusive w,
     exists rq,
       issues (CreateLabel owner repo name color description exclusive) w rq /\
       opt_get "name" (rq_json rq) = Some (PStr name) /\
       opt_get "color" (rq_json rq) = Some (PStr color)).
Proof.
  repeat match goal with |- _ /\ _ => split end; intros.
  - issue_request. unfold create_repository. lookup_keys. reflexivity.
  - issue_request. unfold create_org_repository. lookup_keys. reflexivity.
  - destruct (search_repositories_params q topic include_desc uid
                priority_owner_id starred_by private is_profile template
                archived mode exclusive sort order page limit w)
      as (rq & H & _ & Hq & _).
    exists rq. split; assumption.
  - issue_request. unfold create_issue.
    split; lookup_keys; reflexivity.
  - issue_request. unfold search_issues. reflexivity.
  - issue_request. reflexivity.
  - issue_request. reflexivity.
  - issue_request. unfold create_label.
    split; lookup_keys; reflexivity.
Qed.


(** The methods are GET, POST, PATCH and DELETE.  GET and DELETE requests
    have no JSON body and POST and PATCH requests always have one (be it
    the empty object); query parameters only go with GET. *)
Theorem method_and_payload_discipline (c : call) (w : world)
    (rq : http_request) :
  issues c w rq ->
  (rq_method rq = "GET" \/ rq_method rq = "POST" \/
   rq_method rq = "PATCH" \/ rq_method rq = "DELETE") /\
  (rq_json rq = None <-> rq_method rq = "GET" \/ rq_method rq = "DELETE") /\
  (rq_params rq <> None -> rq_method rq = "GET").
Proof.
  unfold issues. intros H.
  destruct c; cbn [invoke] in H;
    unfold list_repositories, create_repository, create_org_repository,
      get_repository, delete_repository, list_org_repositories,
      fork_repository, search_repositories, update_repository, create_issue,
      search_issues, update_issue, get_issue, list_issue_comments,
      create_issue_comment, add_issue_label, remove_issue_label, list_labels,
      create_label in H;
    rewrite make_request_sent in H; apply app_inv_head in H;
    injection H as <-; cbn [build_request rq_method rq_json rq_params];
    (split; [tauto|]); (split; [|intros; congruence || tauto]);
    (split; [intros; (congruence || tauto) | intros [E|E]; (reflexivity || discriminate E)]).
Qed.

Lemma string_app_assoc (a b c : string) : (a ++ b) ++ c = a ++ b ++ c.
Proof. induction a as [|x a IH]; cbn; [reflexivity | now rewrite IH]. Qed.

(** Path arguments are spliced into the path as they are, with no
    escaping, so a slash in an argument moves the boundary between path
    segments: two different owner/repository pairs can name one URL, and
    a crafted repository name turns [get_repository] into [get_issue] and
    [delete_repository] into [remove_issue_label]. *)
Theorem path_arguments_not_escaped :
  (forall owner middle repo w,
     invoke (GetRepository (owner ++ "/" ++ middle) repo) w =
     invoke (GetRepository owner (middle ++ "/" ++ repo)) w) /\
  (forall owner repo index w,
     invoke (GetRepository owner (repo ++ "/issues/" ++ str_int index)) w =
     invoke (GetIssue owner repo index) w) /\
  (forall owner repo index label_id w,
     invoke (DeleteRepository owner
               (repo ++ "/issues/" ++ str_int index ++ "/labels/"
                ++ str_int label_id)) w =
     invoke (RemoveIssueLabel owner repo index label_id) w).
Proof.
  repeat split; intros; cbn [invoke];
    unfold get_repository, get_issue, delete_repository, remove_issue_label;
    try reflexivity.
  now rewrite string_app_assoc.
Qed.

Lemma append_cancel_l (p x y : string) : p ++ x = p ++ y -> x = y.
Proof.
  induction p as [|a p IH]; cbn; intros H; [exact H|].
  injection H as H. now apply IH.
Qed.

(** An index renders to a decimal string that reads back as the index. *)
Lemma parse_str_int (z : Z) : parse_int (str_int z) = Some z.
Proof.
  unfold parse_int, str_int.
  rewrite NilZero.isi.
  - cbn. now rewrite DecimalZ.of_to.
  - destruct z; cbn; try discriminate.
    intros [= H]. now apply DecimalPos.Unsigned.to_uint_nonnil in H.
  - destruct z; cbn; try discriminate.
    intros [= H]. now apply DecimalPos.Unsigned.to_uint_nonnil in H.
Qed.

(** For a given owner and repository, different issue indexes never share
    a request: the index can be read back from the URL's last segment. *)
Theorem issue_index_determines_url owner repo (i j : Z) w rq :
  issues (GetIssue owner repo i) w rq ->
  issues (GetIssue owner repo j) w rq ->
  i = j.
Proof.
  unfold issues. cbn [invoke]. unfold get_issue.
  rewrite !make_request_sent. intros H H'.
  apply app_inv_head in H, H'. rewrite <- H in H'.
  assert (U : rq_url (build_request "GET"
                        ("repos/" ++ owner ++ "/" ++ repo ++ "/issues/" ++ str_int j)
                        None None) =
              rq_url (build_request "GET"
                        ("repos/" ++ owner ++ "/" ++ repo ++ "/issues/" ++ str_int i)
                        None None)) by congruence.
  cbn [rq_url build_request] in U.
  do 7 apply append_cancel_l in U.
  assert (E : parse_int (str_int j) = parse_int (str_int i)) by now rewrite U.
  rewrite !parse_str_int in E. now injection E.
Qed.

Lemma dict_keys_set_fresh (k : string) (v : pyval) (d : dict) :
  ~ In k (dict_keys d) -> dict_keys (dict_set k v d) = (dict_keys d ++ [k])%list.
Proof.
  induction d as [|[k0 v0] d IH]; cbn; intros H; [reflexivity|].
  destruct (String.eqb_spec k k0) as [->|Hne]; [exfalso; apply H; now left|].
  cbn. f_equal. apply IH. intros Hin. apply H. now right.
Qed.

Lemma assign_each_keys (steps : list (bool * string * pyval)) (d : dict) :
  NoDup (dict_keys d ++ map (fun s => snd (fst s)) steps) ->
  dict_keys (assign_each steps d) =
  (dict_keys d ++ sent_keys (map (fun s => (snd (fst s), fst (fst s))) steps))%list.
Proof.
  revert d. induction steps as [|[[c k] v] steps IH]; intros d H; cbn.
  - unfold sent_keys. cbn. now rewrite app_nil_r.
  - cbn in H.
    assert (Hk : ~ In k (dict_keys d)).
    { intros Hin. apply NoDup_remove_2 in H. apply H.
      apply in_or_app. now left. }
    unfold sent_keys in *. destruct c; cbn.
    + rewrite IH.
      * unfold set_if. rewrite dict_keys_set_fresh by exact Hk.
        now rewrite <- app_assoc.
      * unfold set_if. rewrite dict_keys_set_fresh by exact Hk.
        rewrite <- app_assoc. cbn.
        apply NoDup_remove_1 in H as H1. apply NoDup_remove_2 in H as H2.
        clear IH H. revert H1 H2.
        generalize (map (fun s : bool * string * pyval => snd (fst s)) steps).
        generalize (dict_keys d). intros l1 l2 H1 H2.
        induction l1 as [|x l1 IHl]; cbn in *.
        -- now constructor.
        -- inversion H1; subst. constructor.
           ++ rewrite in_app_iff in *. cbn. intros [Hx|[Hx|Hx]].
              ** tauto.
              ** subst. apply H2. now left.
              ** tauto.
           ++ apply IHl; [assumption|]. intros Hin. apply H2. now right.
    + rewrite IH; [reflexivity|]. cbn.
      now apply NoDup_remove_1 in H.
Qed.

Ltac by_given :=
  unfold given, when_supplied, when_truthy, bound;
  match goal with
  | |- context [match ?o with Some _ => _ | None => _ end] =>
      is_var o; destruct o; [|reflexivity]
  end;
  try reflexivity;
  match goal with
  | |- context [if truthy ?v then _ else _] =>
      match goal with
      | |- truthy ?u = _ => change u with v
      end;
      destruct (truthy v); reflexivity
  end.

(** The query parameters of [search_repositories] are [q] first and then
    the filters that pass their guard, in the order of the signature,
    each once. *)
Theorem search_repositories_parameter_order q topic include_desc uid
    priority_owner_id starred_by private is_profile template archived mode
    exclusive sort order page limit w :
  exists rq,
    issues (SearchRepositories q topic include_desc uid priority_owner_id
              starred_by private is_profile template archived mode exclusive
              sort order page limit) w rq /\
    opt_keys (rq_params rq) =
    "q" :: sent_keys
             [ ("topic", given (when_truthy topic));
               ("includeDesc", given (when_truthy include_desc));
               ("uid", given (when_truthy uid));
               ("priority_owner_id", given (when_truthy priority_owner_id));
               ("starredBy", given (when_truthy starred_by));
               ("private", given (when_supplied private));
               ("is_profile", given (when_supplied is_profile));
               ("template", given (when_supplied template));
               ("archived", given (when_supplied archived));
               ("mode", given (when_truthy mode));
               ("exclusive", given (when_supplied exclusive));
               ("sort", given (when_truthy sort));
               ("order", given (when_truthy order));
               ("page", given (when_truthy page));
               ("limit", given (when_truthy limit)) ].
Proof.
  issue_request. unfold search_repositories.
  cbn [build_request rq_params opt_keys].
  match goal with
  | |- dict_keys ?d = _ =>
      change d with
        (assign_each
           [ (truthy (py (bound false topic)), "topic", py (bound false topic));
             (truthy (py (bound false include_desc)), "includeDesc",
              py (bound false include_desc));
             (truthy (py uid), "uid", py uid);
             (truthy (py priority_owner_id), "priority_owner_id",
              py priority_owner_id);
             (truthy (py starred_by), "starredBy", py starred_by);
             (is_not_None (py private), "private", py private);
             (is_not_None (py is_profile), "is_profile", py is_profile);
             (is_not_None (py template), "template", py template);
             (is_not_None (py archived), "archived", py archived);
             (truthy (py mode), "mode", py mode);
             (is_not_None (py exclusive), "exclusive", py exclusive);
             (truthy (py sort), "sort", py sort);
             (truthy (py order), "order", py order);
             (truthy (py page), "page", py page);
             (truthy (py limit), "limit", py limit) ]
           [ ("q", py q) ])
  end.
  rewrite assign_each_keys.
  - cbn [dict_keys map fst snd app].
    f_equal. f_equal.
    repeat (f_equal; [f_equal; by_given|]).
    do 2 f_equal. by_given.
  - cbn [dict_keys map fst snd app].
    repeat (constructor; [cbn; intuition discriminate|]).
    constructor.
Qed.

Lemma dict_get_fold_set (k : string) (o : list (string * json)) (d : dict) :
  In k (map fst o) \/ dict_get k d <> None ->
  dict_get k (fold_left (fun d kv => dict_set (fst kv) (decode (snd kv)) d) o d)
  <> None.
Proof.
  revert d. induction o as [|[k0 j0] o IH]; intros d H; cbn.
  - destruct H as [[]|H]; exact H.
  - apply IH. cbn in H. rewrite dict_get_set.
    destruct (String.eqb_spec k k0) as [->|Hne].
    + right. discriminate.
    + destruct H as [[E|H]|H]; [congruence | now left | now right].
Qed.

(** A successful answer is passed through even when its document has an
    [error] member, and then it cannot be told from an Error Record. *)
Theorem success_with_error_member (c : call) (w : world)
    (rq : http_request) (r : http_response) (members : list (string * json)) :
  issues c w rq ->
  remote rq = Responded r ->
  200 <= status_code r <= 299 -> status_code r <> 204 ->
  json_body r = inr (JObject members) ->
  In "error" (map fst members) ->
  result (invoke c w) = Return (decode (JObject members)) /\
  returns_error_record (result (invoke c w)) = true.
Proof.
  intros Hi Hr Hs Hn Hj Hin.
  assert (E : result (invoke c w) = Return (decode (JObject members)))
    by (apply success_payload_passthrough with (rq := rq) (r := r); assumption).
  split; [exact E|]. rewrite E. cbn [returns_error_record decode is_error_record].
  pose proof (@dict_get_fold_set "error" members [] (or_introl Hin)) as H.
  destruct (dict_get "error" _); [reflexivity | contradiction].
Qed.

End Server.


(** ** Transport failures, and concrete runs *)

(** C2: with the host unreachable (or timing out), [client.request]
    raises, and every tool call ends with that exception raised past it
    instead of returning an Error Record; one request was attempted. *)
Theorem transport_failure_escapes (url token : string) (e : exn) (c : call)
    (w : world) :
  result (invoke url token (unreachable e) c w) = Raise e /\
  returns_error_record (result (invoke url token (unreachable e) c w)) = false /\
  length (sent (final (invoke url token (unreachable e) c w))) =
  S (length (sent w)).
Proof.
  destruct (invoke_one_request url token (unreachable e) c w) as (rq & H).
  assert (E : result (invoke url token (unreachable e) c w) = Raise e)
    by (apply transport_exception_propagates with (rq := rq); [exact H | reflexivity]).
  rewrite E, H, length_app. cbn [length returns_error_record].
  repeat split. lia.
Qed.

(** Integers render in decimal, with a sign when negative. *)
Example str_int_renders :
  str_int 7 = "7" /\ str_int 404 = "404" /\ str_int 0 = "0" /\
  str_int (-3) = "-3".
Proof. repeat split; reflexivity. Qed.

(** A tri-state flag set to [false] is sent, and the filters left out are
    not: [q="infra"], [archived=false]. *)
Example search_repositories_archived_false :
  issues demo_url demo_token (answering empty_list_document)
    (SearchRepositories "infra" None None None None None None None None
       (Some false) None None None None None None) init_world
    {| rq_method := "GET";
       rq_url := "https://gitea.example.org/api/v1/repos/search";
       rq_headers := get_headers demo_token;
       rq_json := None;
       rq_params := Some [ ("q", PStr "infra"); ("archived", PBool false) ] |}.
Proof. reflexivity. Qed.

(** A 2xx answer is decoded and passed through. *)
Example list_repositories_decoded :
  invoke demo_url demo_token (answering empty_list_document)
    ListRepositories init_world =
  (Return (PList []),
   {| sent := [ build_request demo_url demo_token "GET" "user/repos" None None ];
      logged := [ (INFO, "Request: GET https://gitea.example.org/api/v1/user/repos") ] |}).
Proof. reflexivity. Qed.

(** C1, refuted as stated: [search_repositories] called with
    [topic=false] and [include_desc=false] supplied sends [q] alone; the
    keys [topic] and [includeDesc] are not in the query parameters. *)
Lemma search_repositories_false_flags_dropped :
  sent (final (invoke demo_url demo_token (answering empty_list_document)
                 (SearchRepositories "infra" (Some false) (Some false) None
                    None None None None None None None None None None None
                    None) init_world)) =
  [ {| rq_method := "GET";
       rq_url := "https://gitea.example.org/api/v1/repos/search";
       rq_headers := get_headers demo_token;
       rq_json := None;
       rq_params := Some [ ("q", PStr "infra") ] |} ] /\
  opt_get "topic" (Some [ ("q", PStr "infra") ]) = None /\
  opt_get "includeDesc" (Some [ ("q", PStr "infra") ]) = None.
Proof. repeat split; reflexivity. Qed.

(** C3, refuted as stated: [create_issue] called with [labels=[]] sends
    a body with [title] and [body] only; there is no [labels] key. *)
Lemma create_issue_empty_labels_dropped :
  sent (final (invoke demo_url demo_token (answering empty_list_document)
                 (CreateIssue "alice" "demo" "Bug" "It breaks" None (Some []))
                 init_world)) =
  [ {| rq_method := "POST";
       rq_url := "https://gitea.example.org/api/v1/repos/alice/demo/issues";
       rq_headers := get_headers demo_token;
       rq_json := Some [ ("title", PStr "Bug"); ("body", PStr "It breaks") ];
       rq_params := None |} ] /\
  opt_get "labels" (Some [ ("title", PStr "Bug"); ("body", PStr "It breaks") ])
  = None.
Proof. split; reflexivity. Qed.

(** C4, refuted as stated: [list_labels] called with [owner] and [repo]
    only sends the query parameters [page=1] and [limit=20]. *)
Lemma list_labels_sends_defaults :
  sent (final (invoke demo_url demo_token (answering empty_list_document)
                 (ListLabels "alice" "demo" None None) init_world)) =
  [ {| rq_method := "GET";
       rq_url := "https://gitea.example.org/api/v1/repos/alice/demo/labels";
       rq_headers := get_headers demo_token;
       rq_json := None;
       rq_params := Some [ ("page", PInt 1); ("limit", PInt 20) ] |} ] /\
  opt_keys (Some [ ("page", PInt 1); ("limit", PInt 20) ]) = [ "page"; "limit" ].
Proof. split; reflexivity. Qed.

(** C4, a call with only the required arguments. *)
Lemma only_required_payload_witness :
  only_required (CreateLabel "alice" "demo" "bug" "ff0000" None None) = true /\
  exists rq,
    issues demo_url demo_token (answering empty_list_document)
      (CreateLabel "alice" "demo" "bug" "ff0000" None None) init_world rq /\
    rq_json rq = Some [ ("name", PStr "bug"); ("color", PStr "ff0000");
                        ("exclusive", PBool false) ] /\
    rq_params rq = None.
Proof.
  split; [reflexivity|].
  apply (@only_required_payload demo_url demo_token
           (answering empty_list_document)
           (CreateLabel "alice" "demo" "bug" "ff0000" None None) init_world).
  reflexivity.
Defined.

(** C5, the 404 scenario: status 404 with body [{"message":"not found"}]. *)
Lemma remote_rejection_error_record_witness :
  issues demo_url demo_token (answering not_found)
    (GetRepository "alice" "gone") init_world
    (build_request demo_url demo_token "GET" "repos/alice/gone" None None) /\
  (status_code not_found < 200 \/ 299 < status_code not_found) /\
  result (invoke demo_url demo_token (answering not_found)
            (GetRepository "alice" "gone") init_world) =
  Return (PDict [ ("error", PStr "HTTP Error: 404");
                  ("details", PStr not_found_text) ]).
Proof.
  split; [reflexivity|]. split; [right; reflexivity|].
  apply (@remote_rejection_error_record demo_url demo_token
           (answering not_found) (GetRepository "alice" "gone") init_world
           (build_request demo_url demo_token "GET" "repos/alice/gone" None None)
           not_found).
  - reflexivity.
  - reflexivity.
  - right; reflexivity.
Defined.

(** C6, refuted as stated: the result of a 204 answer is the decoded JSON
    [null], the same result a 200 answer with body [null] gives. *)
Lemma no_content_is_json_null :
  result (invoke demo_url demo_token (answering no_content)
            (DeleteRepository "alice" "old") init_world) =
  Return (decode JNull) /\
  result (invoke demo_url demo_token (answering no_content)
            (DeleteRepository "alice" "old") init_world) =
  result (invoke demo_url demo_token (answering null_document)
            (DeleteRepository "alice" "old") init_world).
Proof. split; reflexivity. Qed.

(** C6, a 204 answer to [delete_repository]. *)
Lemma no_content_returns_None_witness :
  issues demo_url demo_token (answering no_content)
    (DeleteRepository "alice" "old") init_world
    (build_request demo_url demo_token "DELETE" "repos/alice/old" None None) /\
  status_code no_content = 204 /\
  result (invoke demo_url demo_token (answering no_content)
            (DeleteRepository "alice" "old") init_world) = Return PNone.
Proof.
  split; [reflexivity|]. split; [reflexivity|].
  apply (@no_content_returns_None demo_url demo_token (answering no_content)
           (DeleteRepository "alice" "old") init_world
           (build_request demo_url demo_token "DELETE" "repos/alice/old" None None)
           no_content); reflexivity.
Defined.

(** C9, refuted as stated: [create_issue] called with [milestone_id=0]
    supplied sends no [milestone] key. *)
Lemma create_issue_milestone_zero_dropped :
  sent (final (invoke demo_url demo_token (answering empty_list_document)
                 (CreateIssue "alice" "demo" "Bug" "It breaks" (Some 0) None)
                 init_world)) =
  [ {| rq_method := "POST";
       rq_url := "https://gitea.example.org/api/v1/repos/alice/demo/issues";
       rq_headers := get_headers demo_token;
       rq_json := Some [ ("title", PStr "Bug"); ("body", PStr "It breaks") ];
       rq_params := None |} ] /\
  opt_get "milestone" (Some [ ("title", PStr "Bug"); ("body", PStr "It breaks") ])
  = None.
Proof. split; reflexivity. Qed.


(** ** Start-up *)

Lemma os_getenv_app (k : string) (env env' : environ) :
  os_getenv k (env ++ env')%list =
  match os_getenv k env with Some v => Some v | None => os_getenv k env' end.
Proof.
  induction env as [|[k0 v0] env IH]; cbn; [reflexivity|].
  destruct (String.eqb k k0); [reflexivity | exact IH].
Qed.

(** What a variable is after [load_dotenv]: its value in the environment
    if it was set there, else its value in the file. *)
Lemma os_getenv_load_dotenv (k : string) (file : dotenv) (env : environ) :
  os_getenv k (load_dotenv file env) =
  match os_getenv k env with Some v => Some v | None => os_getenv k file end.
Proof.
  revert env. induction file as [|[k0 v0] file IH]; intros env; cbn.
  - now destruct (os_getenv k env).
  - rewrite IH. destruct (os_getenv k0 env) eqn:E0.
    + destruct (os_getenv k env) eqn:E; [reflexivity|].
      destruct (String.eqb_spec k k0) as [->|_]; [congruence | reflexivity].
    + rewrite os_getenv_app. destruct (os_getenv k env) eqn:E; [reflexivity|].
      cbn. destruct (String.eqb k k0); reflexivity.
Qed.

Lemma falsy_string (x : option string) :
  negb (truthy (py x)) = false <-> exists s, x = Some s /\ s <> EmptyString.
Proof.
  destruct x as [s|]; cbn.
  - change (py s) with (PStr s). cbn. rewrite negb_involutive.
    destruct (String.eqb_spec s EmptyString) as [->|Hne]; split.
    + discriminate.
    + intros (s' & [= <-] & H). contradiction.
    + intros _. now exists s.
    + reflexivity.
  - split; [discriminate | intros (s & [=] & _)].
Qed.

(** The last test of start-up, on the environment it has reached. *)
Lemma load_configuration_settles (found_env project_env : option dotenv)
    (env : environ) :
  let e := snd (load_configuration found_env project_env env) in
  fst (load_configuration found_env project_env env) =
  if negb (truthy (py (os_getenv "GITEA_MCP_API_URL" e)))
     || negb (truthy (py (os_getenv "GITEA_ACCESS_TOKEN" e)))
  then Raise config_error
  else match os_getenv "GITEA_MCP_API_URL" e,
             os_getenv "GITEA_ACCESS_TOKEN" e with
       | Some u, Some t => Return (u, t)
       | _, _ => Raise config_error
       end.
Proof.
  unfold load_configuration.
  set (env1 := match found_env with Some f => load_dotenv f env | None => env end).
  destruct (negb (truthy (py (os_getenv "GITEA_MCP_API_URL" env1)))
            || negb (truthy (py (os_getenv "GITEA_ACCESS_TOKEN" env1)))) eqn:E1.
  - destruct project_env as [file|]; cbv zeta.
    + set (env2 := load_dotenv file env1).
      destruct (negb (truthy (py (os_getenv "GITEA_MCP_API_URL" env2)))
                || negb (truthy (py (os_getenv "GITEA_ACCESS_TOKEN" env2)))) eqn:E2.
      * cbn [fst snd]. now rewrite E2.
      * destruct (os_getenv "GITEA_MCP_API_URL" env2) eqn:Eu,
                 (os_getenv "GITEA_ACCESS_TOKEN" env2) eqn:Et;
          cbn [fst snd]; rewrite ?Eu, ?Et, ?E2; reflexivity.
    + rewrite E1. cbn [fst snd]. now rewrite E1.
  - cbv zeta. rewrite E1.
    destruct (os_getenv "GITEA_MCP_API_URL" env1) eqn:Eu,
             (os_getenv "GITEA_ACCESS_TOKEN" env1) eqn:Et;
      cbn [fst snd]; rewrite ?Eu, ?Et, ?E1; reflexivity.
Qed.

(** Start-up succeeds exactly when, in the environment it ends with, both
    variables are set and non-empty, and then the configuration is their
    values: no tool ever runs with an empty base URL or an empty token. *)
Theorem configuration_loaded_iff (found_env project_env : option dotenv)
    (env : environ) (u t : string) :
  fst (load_configuration found_env project_env env) = Return (u, t) <->
  os_getenv "GITEA_MCP_API_URL"
    (snd (load_configuration found_env project_env env)) = Some u /\
  os_getenv "GITEA_ACCESS_TOKEN"
    (snd (load_configuration found_env project_env env)) = Some t /\
  u <> EmptyString /\ t <> EmptyString.
Proof.
  rewrite load_configuration_settles. cbv zeta.
  set (e := snd (load_configuration found_env project_env env)).
  destruct (negb (truthy (py (os_getenv "GITEA_MCP_API_URL" e)))) eqn:Eu.
  - cbn. split; [discriminate|]. intros (Hu & _ & Hne & _).
    assert (F : negb (truthy (py (os_getenv "GITEA_MCP_API_URL" e))) = false)
      by (apply falsy_string; now exists u).
    congruence.
  - destruct (negb (truthy (py (os_getenv "GITEA_ACCESS_TOKEN" e)))) eqn:Et.
    + cbn. split; [discriminate|]. intros (_ & Ht & _ & Hne).
      assert (F : negb (truthy (py (os_getenv "GITEA_ACCESS_TOKEN" e))) = false)
        by (apply falsy_string; now exists t).
      congruence.
    + apply falsy_string in Eu as (u0 & Eu & Hu).
      apply falsy_string in Et as (t0 & Et & Ht).
      rewrite Eu, Et. cbn. split.
      * intros [= <- <-]. now repeat split.
      * intros ([= <-] & [= <-] & _). reflexivity.
Qed.

(** Variables set in the environment win over both [.env] files: when the
    two are set and non-empty there, start-up returns them whatever the
    files bind, and the file of the project root is not loaded. *)
Theorem environment_takes_precedence (found_env project_env : option dotenv)
    (env : environ) (u t : string) :
  os_getenv "GITEA_MCP_API_URL" env = Some u -> u <> EmptyString ->
  os_getenv "GITEA_ACCESS_TOKEN" env = Some t -> t <> EmptyString ->
  load_configuration found_env project_env env =
  (Return (u, t),
   match found_env with Some file => load_dotenv file env | None => env end).
Proof.
  intros Hu Hue Ht Hte. unfold load_configuration.
  set (env1 := match found_env with Some f => load_dotenv f env | None => env end).
  assert (Hu1 : os_getenv "GITEA_MCP_API_URL" env1 = Some u)
    by (subst env1; destruct found_env; [rewrite os_getenv_load_dotenv, Hu|]; easy).
  assert (Ht1 : os_getenv "GITEA_ACCESS_TOKEN" env1 = Some t)
    by (subst env1; destruct found_env; [rewrite os_getenv_load_dotenv, Ht|]; easy).
  assert (Fu : negb (truthy (py (os_getenv "GITEA_MCP_API_URL" env1))) = false)
    by (apply falsy_string; now exists u).
  assert (Ft : negb (truthy (py (os_getenv "GITEA_ACCESS_TOKEN" env1))) = false)
    by (apply falsy_string; now exists t).
  rewrite Fu, Ft. cbn [orb]. rewrite Fu, Ft. cbn [orb].
  now rewrite Hu1, Ht1.
Qed.

(** A variable that is set but empty is not filled in from a [.env]
    file: start-up then raises [ValueError] whatever the files bind. *)
Theorem empty_variable_blocks_dotenv (found_env project_env : option dotenv)
    (env : environ) :
  os_getenv "GITEA_MCP_API_URL" env = Some EmptyString \/
  os_getenv "GITEA_ACCESS_TOKEN" env = Some EmptyString ->
  fst (load_configuration found_env project_env env) = Raise config_error.
Proof.
  intros H. rewrite load_configuration_settles. cbv zeta.
  set (e := snd (load_configuration found_env project_env env)).
  assert (K : forall k, os_getenv k env = Some EmptyString ->
                        os_getenv k e = Some EmptyString).
  { intros k Hk. subst e. unfold load_configuration.
    set (env1 := match found_env with Some f => load_dotenv f env | None => env end).
    assert (H1 : os_getenv k env1 = Some EmptyString)
      by (subst env1; destruct found_env; [rewrite os_getenv_load_dotenv, Hk|]; easy).
    destruct (negb (truthy (py (os_getenv "GITEA_MCP_API_URL" env1)))
              || negb (truthy (py (os_getenv "GITEA_ACCESS_TOKEN" env1)))).
    - destruct project_env as [file|]; cbv zeta.
      + set (env2 := load_dotenv file env1).
        assert (H2 : os_getenv k env2 = Some EmptyString)
          by (subst env2; now rewrite os_getenv_load_dotenv, H1).
        destruct (negb _ || negb _); [exact H2|].
        destruct (os_getenv "GITEA_MCP_API_URL" env2),
                 (os_getenv "GITEA_ACCESS_TOKEN" env2); exact H2.
      + destruct (negb _ || negb _); [exact H1|].
        destruct (os_getenv "GITEA_MCP_API_URL" env1),
                 (os_getenv "GITEA_ACCESS_TOKEN" env1); exact H1.
    - cbv zeta. destruct (negb _ || negb _); [exact H1|].
      destruct (os_getenv "GITEA_MCP_API_URL" env1),
               (os_getenv "GITEA_ACCESS_TOKEN" env1); exact H1. }
  destruct H as [H|H]; apply K in H; rewrite H; cbn.
  - reflexivity.
  - now rewrite orb_true_r.
Qed.

(** The fallback takes from the project's [.env] file only what the
    environment lacks: with the URL set and the token missing, start-up
    returns the environment's URL and the file's token. *)
Theorem project_file_completes (file : dotenv) (env : environ) (u t : string) :
  os_getenv "GITEA_MCP_API_URL" env = Some u -> u <> EmptyString ->
  os_getenv "GITEA_ACCESS_TOKEN" env = None ->
  os_getenv "GITEA_ACCESS_TOKEN" file = Some t -> t <> EmptyString ->
  fst (load_configuration None (Some file) env) = Return (u, t).
Proof.
  intros Hu Hue Ht Hf Hte.
  apply configuration_loaded_iff.
  assert (E : snd (load_configuration None (Some file) env) = load_dotenv file env).
  { unfold load_configuration. rewrite Hu, Ht. cbn [py ToPy_option truthy negb orb].
    rewrite orb_true_r.
    destruct (negb _ || negb _); [reflexivity|].
    destruct (os_getenv "GITEA_MCP_API_URL" (load_dotenv file env)),
             (os_getenv "GITEA_ACCESS_TOKEN" (load_dotenv file env)); reflexivity. }
  rewrite E, !os_getenv_load_dotenv, Hu, Ht, Hf. now repeat split.
Qed.

(** ** Concrete runs of the further properties *)


Lemma raises_only_on_transport_failure_witness :
  issues demo_url demo_token (unreachable connect_error) ListRepositories
    init_world
    (build_request demo_url demo_token "GET" "user/repos" None None) /\
  result (invoke demo_url demo_token (unreachable connect_error)
            ListRepositories init_world) = Raise connect_error.
Proof.
  split; [reflexivity|].
  apply (@raises_only_on_transport_failure demo_url demo_token
           (unreachable connect_error) ListRepositories init_world
           (build_request demo_url demo_token "GET" "user/repos" None None)
           connect_error eq_refl).
  reflexivity.
Defined.

Lemma success_payload_passthrough_witness :
  issues demo_url demo_token (answering empty_list_document) ListRepositories
    init_world
    (build_request demo_url demo_token "GET" "user/repos" None None) /\
  200 <= status_code empty_list_document <= 299 /\
  result (invoke demo_url demo_token (answering empty_list_document)
            ListRepositories init_world) = Return (PList []).
Proof.
  split; [reflexivity|]. split; [cbn; lia|].
  apply (@success_payload_passthrough demo_url demo_token
           (answering empty_list_document) ListRepositories init_world
           (build_request demo_url demo_token "GET" "user/repos" None None)
           empty_list_document (JArray [])).
  - reflexivity.
  - reflexivity.
  - cbn; lia.
  - discriminate.
  - reflexivity.
Defined.

Lemma unparsable_success_is_error_record_witness :
  issues demo_url demo_token (answering empty_body)
    (CreateIssueComment "alice" "demo" 7 "Thanks") init_world
    (build_request demo_url demo_token "POST"
       "repos/alice/demo/issues/7/comments"
       (Some [ ("body", PStr "Thanks") ]) None) /\
  result (invoke demo_url demo_token (answering empty_body)
            (CreateIssueComment "alice" "demo" 7 "Thanks") init_world) =
  Return (PDict [ ("error", PStr "Expecting value: line 1 column 1 (char 0)") ]).
Proof.
  split; [reflexivity|].
  apply (@unparsable_success_is_error_record demo_url demo_token
           (answering empty_body)
           (CreateIssueComment "alice" "demo" 7 "Thanks") init_world
           (build_request demo_url demo_token "POST"
              "repos/alice/demo/issues/7/comments"
              (Some [ ("body", PStr "Thanks") ]) None)
           empty_body).
  - reflexivity.
  - reflexivity.
  - cbn; lia.
  - discriminate.
  - reflexivity.
Defined.

Lemma success_with_error_member_witness :
  In "error" (map fst [ ("error", JString "busy") ]) /\
  returns_error_record
    (result (invoke demo_url demo_token (answering soft_failure)
               ListRepositories init_world)) = true.
Proof.
  split; [now left|].
  apply (@success_with_error_member demo_url demo_token
           (answering soft_failure) ListRepositories init_world
           (build_request demo_url demo_token "GET" "user/repos" None None)
           soft_failure [ ("error", JString "busy") ]).
  - reflexivity.
  - reflexivity.
  - cbn; lia.
  - discriminate.
  - reflexivity.
  - now left.
Defined.

Lemma request_line_logged_witness :
  exists rest,
    logged (final (invoke demo_url demo_token (answering not_found)
                     (GetRepository "alice" "gone") init_world)) =
    (logged init_world ++
     (INFO, "Request: GET https://gitea.example.org/api/v1/repos/alice/gone")
     :: rest)%list /\
    (rest = [] \/ exists msg, rest = [ (ERROR, msg) ]).
Proof.
  apply (@request_line_logged demo_url demo_token (answering not_found)
           (GetRepository "alice" "gone") init_world
           (build_request demo_url demo_token "GET" "repos/alice/gone" None None)).
  reflexivity.
Defined.

Lemma transport_failure_not_logged_witness :
  logged (final (invoke demo_url demo_token (unreachable connect_error)
                   ListRepositories init_world)) =
  [ (INFO, "Request: GET https://gitea.example.org/api/v1/user/repos") ].
Proof.
  apply (@transport_failure_not_logged demo_url demo_token
           (unreachable connect_error) ListRepositories init_world
           (build_request demo_url demo_token "GET" "user/repos" None None)
           connect_error); reflexivity.
Defined.


Lemma method_and_payload_discipline_witness :
  rq_json (build_request demo_url demo_token "DELETE" "repos/alice/old"
             None None) = None <->
  rq_method (build_request demo_url demo_token "DELETE" "repos/alice/old"
               None None) = "GET" \/
  rq_method (build_request demo_url demo_token "DELETE" "repos/alice/old"
               None None) = "DELETE".
Proof.
  apply (@method_and_payload_discipline demo_url demo_token
           (answering no_content) (DeleteRepository "alice" "old") init_world).
  reflexivity.
Defined.

Lemma issue_index_determines_url_witness : 7 = 7.
Proof.
  apply (@issue_index_determines_url demo_url demo_token
           (answering empty_list_document) "alice" "demo" 7 7 init_world
           (build_request demo_url demo_token "GET" "repos/alice/demo/issues/7"
              None None)); reflexivity.
Defined.

Lemma configuration_loaded_iff_witness :
  fst (load_configuration None (Some project_dotenv) url_only) =
  Return ("https://gitea.example.org", "0123abcd").
Proof.
  apply (proj2 (configuration_loaded_iff None (Some project_dotenv) url_only
                  "https://gitea.example.org" "0123abcd")).
  repeat split; discriminate.
Defined.

Lemma environment_takes_precedence_witness :
  load_configuration (Some project_dotenv) (Some project_dotenv)
    [ ("GITEA_ACCESS_TOKEN", "feedbeef");
      ("GITEA_MCP_API_URL", "https://gitea.example.org") ] =
  (Return ("https://gitea.example.org", "feedbeef"),
   [ ("GITEA_ACCESS_TOKEN", "feedbeef");
     ("GITEA_MCP_API_URL", "https://gitea.example.org") ]).
Proof.
  apply (@environment_takes_precedence (Some project_dotenv)
           (Some project_dotenv)
           [ ("GITEA_ACCESS_TOKEN", "feedbeef");
             ("GITEA_MCP_API_URL", "https://gitea.example.org") ]
           "https://gitea.example.org" "feedbeef");
    (reflexivity || discriminate).
Defined.

Lemma empty_variable_blocks_dotenv_witness :
  fst (load_configuration (Some project_dotenv) (Some project_dotenv)
         [ ("GITEA_ACCESS_TOKEN", EmptyString) ]) = Raise config_error.
Proof.
  apply (@empty_variable_blocks_dotenv (Some project_dotenv)
           (Some project_dotenv) [ ("GITEA_ACCESS_TOKEN", EmptyString) ]).
  right. reflexivity.
Defined.

Lemma project_file_completes_witness :
  fst (load_configuration None (Some project_dotenv) url_only) =
  Return ("https://gitea.example.org", "0123abcd").
Proof.
  apply (@project_file_completes project_dotenv url_only
           "https://gitea.example.org" "0123abcd");
    (reflexivity || discriminate).
Defined.
